(** * The NOAA hurricanes notebook (py/examples/noaa_hurricanes.ipynb)

    A shallow embedding of the notebook's three steps:
    - Session Init: [ee.Initialize()] with the [ee.Authenticate()] fallback;
    - Query Builder: the year filter, the storm ids and the per-storm lines;
    - Layer Renderer: the [EarthEngineLayer] objects and the two [pdk.Deck]s.

    Earth Engine expressions are deferred descriptors evaluated by the remote
    service; the embedding gives each expression its denotation (a feature
    collection is the list of its features, in collection order). *)

From Stdlib Require Import ZArith Ascii String.
From stdpp Require Import gmap strings list sorting.

(** ** Data model *)

(** A property value of a feature, or the result of a getter. [VNull] is what
    [ee.Feature.get] yields for a property that is not set. *)
Inductive Value : Type :=
  | VNull
  | VString (s : string)
  | VNumber (n : Z).

#[global] Instance Value_eq_dec : EqDecision Value.
Proof. solve_decision. Defined.

(** A coordinate pair (longitude, latitude). Coordinates are carried from the
    points to the lines and never computed on; they are kept in fixed-point
    units. *)
Abbreviation Coord := (Z * Z)%type.

Inductive Geometry : Type :=
  | Point (c : Coord)
  | MultiPoint (cs : list Coord)
  | LineString (cs : list Coord).

#[global] Instance Geometry_eq_dec : EqDecision Geometry.
Proof. solve_decision. Defined.

Record Feature : Type := mkFeature {
  geometry : Geometry;
  properties : gmap string Value
}.

#[global] Instance Feature_eq_dec : EqDecision Feature.
Proof. solve_decision. Defined.

(** Instants are milliseconds since 1970-01-01T00:00:00Z, as [ee.Date] has
    them; a [DateRange] is the half-open interval from [range_start] to
    [range_end]. *)
Record DateRange : Type := mkDateRange {
  range_start : Z;
  range_end : Z
}.

(** ** The calendar behind [ee.Date] (proleptic Gregorian, UTC) *)

Module Calendar.
Local Open Scope Z_scope.

Definition ms_per_day : Z := 86400000.

(** Days from 1970-01-01 to the civil date [y]-[m]-[d]. *)
Definition days_from_civil (y m d : Z) : Z :=
  let y := if m <=? 2 then y - 1 else y in
  let era := y / 400 in
  let yoe := y - era * 400 in
  let mp := if 2 <? m then m - 3 else m + 9 in
  let doy := (153 * mp + 2) / 5 + d - 1 in
  let doe := yoe * 365 + yoe / 4 - yoe / 100 + doy in
  era * 146097 + doe - 719468.

(** The civil year that contains day number [z]. *)
Definition year_of_days (z : Z) : Z :=
  let z := z + 719468 in
  let era := z / 146097 in
  let doe := z - era * 146097 in
  let yoe := (doe - doe / 1460 + doe / 36524 - doe / 146096) / 365 in
  let y := yoe + era * 400 in
  let doy := doe - (365 * yoe + yoe / 4 - yoe / 100) in
  let mp := (5 * doy + 2) / 153 in
  let m := if mp <? 10 then mp + 3 else mp - 9 in
  if m <=? 2 then y + 1 else y.

Definition millis_of_civil (y m d : Z) : Z := days_from_civil y m d * ms_per_day.

Definition year_of_millis (t : Z) : Z := year_of_days (t / ms_per_day).

(** The first instant of year [y]: [y]-01-01T00:00:00Z. *)
Definition year_start (y : Z) : Z := millis_of_civil y 1 1.

(** The year within its 400-year era, from the day of the era: the part of
    [year_of_days] that follows the split into eras. *)
Definition year_in_era (doe : Z) : Z :=
  let yoe := (doe - doe / 1460 + doe / 36524 - doe / 146096) / 365 in
  let doy := doe - (365 * yoe + yoe / 4 - yoe / 100) in
  let mp := (5 * doy + 2) / 153 in
  let m := if mp <? 10 then mp + 3 else mp - 9 in
  if m <=? 2 then yoe + 1 else yoe.

(** The day of the era of the first of January that follows [r] whole
    (March-based) years of the era. *)
Definition jan1_doe (r : Z) : Z := r * 365 + r / 4 - r / 100 + 306.

(** The check that [year_in_era] finds the year of that first of January. *)
Definition jan1_ok (r : Z) : bool :=
  (0 <=? jan1_doe r) && (jan1_doe r <? 146097)
  && (year_in_era (jan1_doe r) =? r + 1).
End Calendar.

(** ** The Earth Engine operations the notebook calls *)

Module ee.
Local Open Scope Z_scope.

(** [ee.Feature(geom)]: a feature with no properties. *)
Definition Feature_new (g : Geometry) : Feature := mkFeature g ∅.

(** [feature.get(name)]. *)
Definition Feature_get (f : Feature) (name : string) : Value :=
  default VNull (properties f !! name).

(** [feature.set(name, value)]. *)
Definition Feature_set (f : Feature) (name : string) (v : Value) : Feature :=
  mkFeature (geometry f) (<[name := v]> (properties f)).

(** [ee.String(x)] wraps a computed value; it builds no new value. *)
Definition String_cast (v : Value) : Value := v.

Definition digit_of (a : ascii) : option Z :=
  let n := Z.of_nat (nat_of_ascii a) in
  if (48 <=? n) && (n <=? 57) then Some (n - 48) else None.

Fixpoint parse_digits (s : string) (acc : Z) : option Z :=
  match s with
  | EmptyString => Some acc
  | String a s' =>
      match digit_of a with
      | Some d => parse_digits s' (10 * acc + d)
      | None => None
      end
  end.

(** The year a string of four decimal digits denotes. *)
Definition parse_year (s : string) : option Z :=
  if Nat.eqb (String.length s) 4 then parse_digits s 0 else None.

(** [ee.Date(s)] for a year string such as ['2017']: the first instant of
    that year. Other date formats are not used by the notebook and are not
    recognised here. *)
Definition Date (s : string) : option Z :=
  match parse_year s with
  | Some y => Some (Calendar.year_start y)
  | None => None
  end.

(** [date.getRange('year')]: the calendar year that contains [date]. *)
Definition Date_getRange_year (date : Z) : DateRange :=
  let y := Calendar.year_of_millis date in
  mkDateRange (Calendar.year_start y) (Calendar.year_start (y + 1)).

(** A filter is a predicate on features. *)
Definition Filter : Type := Feature → bool.

(** [ee.Filter.date(range)]: the feature's ['system:time_start'] lies in
    the range, start included, end excluded. *)
Definition Filter_date (r : DateRange) : Filter := λ f,
  match Feature_get f "system:time_start" with
  | VNumber t => (range_start r <=? t) && (t <? range_end r)
  | _ => false
  end.

(** [ee.Filter.eq(name, value)]. *)
Definition Filter_eq (name : string) (v : Value) : Filter := λ f,
  bool_decide (Feature_get f name = v).

(** [collection.filter(flt)] keeps the matching features in order. *)
Definition FeatureCollection_filter (flt : Filter) (fc : list Feature)
  : list Feature :=
  filter (λ f, flt f = true) fc.

(** [collection.toList(count)]: at most the first [count] features. *)
Definition FeatureCollection_toList (count : nat) (fc : list Feature)
  : list Feature :=
  take count fc.

(** The vertices of a geometry. *)
Definition Geometry_coordinates (g : Geometry) : list Coord :=
  match g with
  | Point c => [c]
  | MultiPoint cs => cs
  | LineString cs => cs
  end.

(** [collection.geometry()]: the features' geometries merged, in
    collection order. *)
Definition FeatureCollection_geometry (fc : list Feature) : Geometry :=
  MultiPoint (flat_map (λ f, Geometry_coordinates (geometry f)) fc).

(** [ee.Geometry.LineString(coords)]: the geometry the constructor builds
    when it accepts the coordinates ([Geometry_LineString_call] has its
    check). *)
Definition Geometry_LineString (cs : list Coord) : Geometry := LineString cs.

(** [ee.Geometry.LineString(coords)] as a call that can fail: the constructor
    raises [EEException] for a list without coordinates, and builds the line
    string for any other list. [None] stands for the exception. *)
Definition Geometry_LineString_call (cs : list Coord) : option Geometry :=
  match cs with
  | [] => None
  | _ :: _ => Some (Geometry_LineString cs)
  end.

(** Ascending order of two features by the number stored under [name].
    Features without a number there are not ordered by it. *)
Definition key_le (name : string) (f g : Feature) : Prop :=
  ∀ a b, Feature_get f name = VNumber a → Feature_get g name = VNumber b → a ≤ b.

(** The two server-side operations whose output order the notebook does not
    fix: [collection.sort(name)] returns the same features in ascending
    order of the key (the order among equal keys is the service's), and
    [list.distinct()] returns each element once. *)
Class Backend : Type := {
  sort : string → list Feature → list Feature;
  distinct : list Value → list Value;
  sort_Permutation : ∀ name fc, sort name fc ≡ₚ fc;
  sort_ascending : ∀ name fc, StronglySorted (key_le name) (sort name fc);
  distinct_NoDup : ∀ l, NoDup (distinct l);
  distinct_elem_of : ∀ l v, v ∈ distinct l ↔ v ∈ l
}.
End ee.

(** ** Query Builder (the notebook's dataset cell) *)

Section QueryBuilder.
Context `{B : ee.Backend}.

(** [def get_id(point): return ee.Feature(point).get('id')] *)
Definition get_id (point : Feature) : Value :=
  ee.Feature_get point "id".

(** [storm_ids = points.toList(1000).map(get_id).distinct()] *)
Definition storm_ids (points : list Feature) : list Value :=
  ee.distinct (get_id <$> ee.FeatureCollection_toList 1000 points).

(** [def create_line(storm_id)], with the [points] it closes over: the
    feature the function describes ([run_create_line] has the call of the
    constructor that can fail). *)
Definition create_line (points : list Feature) (storm_id : Value) : Feature :=
  let pts := ee.FeatureCollection_filter
               (ee.Filter_eq "id" (ee.String_cast storm_id)) points in
  let pts := ee.sort "system:time_start" pts in
  let line := ee.Geometry_LineString
                (ee.Geometry_coordinates (ee.FeatureCollection_geometry pts)) in
  let feature := ee.Feature_new line in
  ee.Feature_set feature "id" storm_id.

(** [create_line(storm_id)] run with the constructor's check: the same steps,
    and [None] when [ee.Geometry.LineString] raises. *)
Definition run_create_line (points : list Feature) (storm_id : Value)
  : option Feature :=
  let pts := ee.FeatureCollection_filter
               (ee.Filter_eq "id" (ee.String_cast storm_id)) points in
  let pts := ee.sort "system:time_start" pts in
  match ee.Geometry_LineString_call
          (ee.Geometry_coordinates (ee.FeatureCollection_geometry pts)) with
  | None => None
  | Some line =>
      let feature := ee.Feature_new line in
      Some (ee.Feature_set feature "id" storm_id)
  end.

(** [storm_ids.map(create_line)] run: the line of every listed storm id, and
    [None] when the synthesis of one of them fails. *)
Definition run_lines (points : list Feature) : option (list Feature) :=
  mapM (run_create_line points) (storm_ids points).

(** The dataset cell for a dataset id and a year string: the year's points
    and the synthesized lines. [catalog] is the service's table of
    datasets. [None] when the id names no dataset or the year is not a year
    string. *)
Definition query_builder (catalog : gmap string (list Feature))
    (dataset : string) (year : string)
  : option (list Feature * list Feature) :=
  match catalog !! dataset with
  | None => None
  | Some hurricanes =>
      match ee.Date year with
      | None => None
      | Some date =>
          let points := ee.FeatureCollection_filter
                          (ee.Filter_date (ee.Date_getRange_year date))
                          hurricanes in
          let storm_ids := storm_ids points in
          let lines := create_line points <$> storm_ids in
          Some (points, lines)
      end
  end.
End QueryBuilder.

(** ** Layer Renderer *)

(** The Python values the notebook passes as style options. A float literal
    is kept as written: [PyFloat m e] is the decimal [m * 10^e]. *)
Inductive PyVal : Type :=
  | PyBool (b : bool)
  | PyInt (n : Z)
  | PyFloat (mantissa exponent : Z)
  | PyStr (s : string)
  | PyList (l : list Z).

#[global] Instance PyVal_eq_dec : EqDecision PyVal.
Proof. solve_decision. Defined.

(** Modelled from the spec: the [EarthEngineLayer] class
    (py/pydeck_earthengine_layers) is not among the sources. Per the spec a
    Display Layer is a local configuration object binding a FeatureCollection
    reference to a set of rendering style options; the record keeps the
    constructor's arguments as the notebook passes them: the Earth Engine
    object, the optional [vis_params] dictionary and the keyword arguments. *)
Record Layer : Type := mkLayer {
  ee_object : list Feature;
  vis_params : option (gmap string PyVal);
  kwargs : gmap string PyVal
}.

#[global] Instance Layer_eq_dec : EqDecision Layer.
Proof. solve_decision. Defined.

(** [EarthEngineLayer(ee_object, vis_params, **kwargs)] *)
Definition EarthEngineLayer (ee_object : list Feature)
    (vis_params : option (gmap string PyVal))
    (kwargs : list (string * PyVal)) : Layer :=
  mkLayer ee_object vis_params (list_to_map kwargs).

Inductive RenderingMode : Type := Raster | Vector.

#[global] Instance RenderingMode_eq_dec : EqDecision RenderingMode.
Proof. solve_decision. Defined.

(** Modelled from the spec: the rendering mode is the raster-vs-vector style
    option, vector when [as_vector] is passed as [True], raster when it is
    unset or false. *)
Definition rendering_mode (l : Layer) : RenderingMode :=
  match kwargs l !! "as_vector" with
  | Some (PyBool true) => Vector
  | _ => Raster
  end.

(** The identifier string of a layer (its [id] keyword). *)
Definition layer_id (l : Layer) : option PyVal := kwargs l !! "id".

(** The style options of a layer other than its rendering mode. *)
Definition style_options (l : Layer)
  : option (gmap string PyVal) * gmap string PyVal :=
  (vis_params l, delete "as_vector" (kwargs l)).

Module pdk.

(** [pdk.ViewState(latitude=..., longitude=..., zoom=...)] *)
Record ViewState : Type := mkViewState {
  latitude : Z;
  longitude : Z;
  zoom : Z
}.

#[global] Instance ViewState_eq_dec : EqDecision ViewState.
Proof. solve_decision. Defined.

(** [pdk.Deck(layers=..., initial_view_state=..., tooltip=...)]; [tooltip] is
    [None] when the keyword is not passed. *)
Record Deck : Type := mkDeck {
  layers : list Layer;
  initial_view_state : ViewState;
  tooltip : option bool
}.

#[global] Instance Deck_eq_dec : EqDecision Deck.
Proof. solve_decision. Defined.

(** Modelled from the spec: the renderer behind [show] is not among the
    sources. Per the spec a View's layer list order determines the
    paint/z-order: the layers are painted in list order, each over the ones
    before it. The result lists the layer ids from bottom to top. *)
Definition paint_order (d : Deck) : list (option PyVal) :=
  layer_id <$> layers d.

End pdk.

(** ** The notebook's effects *)

(** What [r.show()] hands back (the widget or HTML of the rendered map). *)
Abbreviation Widget := string.

(** The calls the notebook makes to its collaborators, in program order. *)
Inductive Call : Type :=
  | CInitialize
  | CAuthenticate
  | CShow (d : pdk.Deck).

#[global] Instance Call_eq_dec : EqDecision Call.
Proof. solve_decision. Defined.

(** The exceptions a cell can end with. All are [Exception]s. *)
Inductive Exn : Type :=
  | InitializeError
  | AuthenticateError
  | QueryError.

Inductive Outcome (A : Type) : Type :=
  | Returned (a : A)
  | Raised (e : Exn).
Arguments Returned {A} a.
Arguments Raised {A} e.

(** The environment of a run. Whether a call to [ee.Initialize()] or
    [ee.Authenticate()] succeeds is decided by the environment, from the
    calls made so far; [catalog] is the service's table of datasets and
    [show_value] what [show] returns for a deck. *)
Record World : Type := mkWorld {
  Initialize_ok : list Call → bool;
  Authenticate_ok : list Call → bool;
  catalog : gmap string (list Feature);
  show_value : pdk.Deck → Widget
}.

(** A computation reads the world, extends the trace of calls and either
    returns or raises. *)
Definition M (A : Type) : Type := World → list Call → Outcome A * list Call.

#[global] Instance M_ret : MRet M := λ A a _ t, (Returned a, t).

#[global] Instance M_bind : MBind M := λ A B k m w t,
  match m w t with
  | (Returned a, t') => k a w t'
  | (Raised e, t') => (Raised e, t')
  end.

Definition raise {A : Type} (e : Exn) : M A := λ _ t, (Raised e, t).

(** [try: body / except Exception as e: handler]. *)
Definition try_except {A : Type} (body : M A) (handler : Exn → M A) : M A :=
  λ w t,
    match body w t with
    | (Returned a, t') => (Returned a, t')
    | (Raised e, t') => handler e w t'
    end.

(** [ee.Initialize()] *)
Definition ee_Initialize : M unit := λ w t,
  (if Initialize_ok w t then Returned tt else Raised InitializeError,
   t ++ [CInitialize]).

(** [ee.Authenticate()] *)
Definition ee_Authenticate : M unit := λ w t,
  (if Authenticate_ok w t then Returned tt else Raised AuthenticateError,
   t ++ [CAuthenticate]).

(** [deck.show()] *)
Definition Deck_show (d : pdk.Deck) : M Widget := λ w t,
  (Returned (show_value w d), t ++ [CShow d]).

(** ** Session Init (the notebook's authentication cell) *)

Definition session_init : M unit :=
  try_except ee_Initialize (λ e, ee_Authenticate ;; ee_Initialize).

(** ** The layer and deck cells *)

Module raster.
Definition lines_layer (lines : list Feature) : Layer :=
  EarthEngineLayer lines (Some {[ "color" := PyStr "red" ]})
    [("id", PyStr "tracks")].

Definition points_layer (points : list Feature) : Layer :=
  EarthEngineLayer points (Some {[ "color" := PyStr "black" ]})
    [("id", PyStr "points")].

Definition view_state : pdk.ViewState := pdk.mkViewState 36 (-53) 3.

Definition r (points lines : list Feature) : pdk.Deck :=
  pdk.mkDeck [points_layer points; lines_layer lines] view_state None.
End raster.

Module vector.
Definition lines_layer (lines : list Feature) : Layer :=
  EarthEngineLayer lines None
    [("as_vector", PyBool true);
     ("get_line_color", PyList [255; 0; 0]%Z);
     ("getLineWidth", PyInt 1000);
     ("lineWidthMinPixels", PyInt 3);
     ("id", PyStr "tracks")].

Definition points_layer (points : list Feature) : Layer :=
  EarthEngineLayer points None
    [("get_fill_color", PyList [0; 0; 0]%Z);
     ("pointRadiusMinPixels", PyInt 3);
     ("getRadius", PyInt 100);
     ("getLineColor", PyList [255; 255; 255]%Z);
     ("lineWidthMinPixels", PyFloat 5 (-1));
     ("as_vector", PyBool true);
     ("stroked", PyBool true);
     ("id", PyStr "points")].

Definition view_state : pdk.ViewState := pdk.mkViewState 36 (-53) 3.

Definition r (points lines : list Feature) : pdk.Deck :=
  pdk.mkDeck [lines_layer lines; points_layer points] view_state (Some true).
End vector.

(** ** The whole notebook *)

(** The names bound when the last cell has run. *)
Module nb.
Record Globals : Type := mkGlobals {
  year : string;
  points : list Feature;
  lines : list Feature;
  lines_layer : Layer;
  points_layer : Layer;
  view_state : pdk.ViewState;
  r : pdk.Deck
}.
End nb.

Section Notebook.
Context `{B : ee.Backend}.

(** The dataset cell as a step of the run. The notebook only builds the
    deferred expression here; the embedding evaluates it where it is written,
    and ends the run with [QueryError] for a query the service cannot
    resolve. That branch is the embedding's own: the properties of the run
    are stated for queries that resolve. *)
Definition query_cell (dataset year : string) : M (list Feature * list Feature) :=
  λ w t,
    (match query_builder (catalog w) dataset year with
     | Some result => Returned result
     | None => Raised QueryError
     end, t).

(** The cells in order. A name that a later cell binds again is bound again
    here. *)
Definition notebook : M nb.Globals :=
  session_init ;;
  let year := "2017" in
  '(points, lines) ← query_cell "NOAA/NHC/HURDAT2/atlantic" year ;
  let lines_layer := raster.lines_layer lines in
  let points_layer := raster.points_layer points in
  let view_state := raster.view_state in
  let r := pdk.mkDeck [points_layer; lines_layer] view_state None in
  Deck_show r ;;
  let lines_layer := vector.lines_layer lines in
  let points_layer := vector.points_layer points in
  let view_state := vector.view_state in
  let r := pdk.mkDeck [lines_layer; points_layer] view_state (Some true) in
  Deck_show r ;;
  mret (nb.mkGlobals year points lines lines_layer points_layer view_state r).
End Notebook.

(** ** A reference service

    One implementation of the service-side operations: a merge sort on the
    key (numbers first, ascending) and the removal of repeated elements. It
    shows that the [ee.Backend] contract can be met and runs the examples. *)

Definition value_leb (v w : Value) : bool :=
  match v, w with
  | VNumber a, VNumber b => (a <=? b)%Z
  | VNumber _, _ => true
  | _, VNumber _ => false
  | _, _ => true
  end.

Definition feature_le (name : string) (f g : Feature) : Prop :=
  value_leb (ee.Feature_get f name) (ee.Feature_get g name) = true.

#[global] Instance feature_le_dec name : RelDecision (feature_le name).
Proof. intros f g. unfold feature_le. apply _. Defined.

#[global] Instance feature_le_total name : Total (feature_le name).
Proof.
  intros f g. unfold feature_le.
  destruct (ee.Feature_get f name), (ee.Feature_get g name); simpl; auto.
  destruct (Z.le_ge_cases n n0); [left | right]; by apply Z.leb_le.
Qed.

#[global] Instance feature_le_trans name : Transitive (feature_le name).
Proof.
  intros f g h. unfold feature_le.
  destruct (ee.Feature_get f name), (ee.Feature_get g name),
    (ee.Feature_get h name); simpl; auto; try discriminate.
  rewrite !Z.leb_le. lia.
Qed.

Definition reference_backend : ee.Backend.
Proof.
  refine {| ee.sort name fc := merge_sort (feature_le name) fc;
            ee.distinct l := remove_dups l |}.
  - intros name fc. apply merge_sort_Permutation.
  - intros name fc.
    pose proof (StronglySorted_merge_sort (feature_le name) fc) as Hs.
    revert Hs. generalize (merge_sort (feature_le name) fc) as l.
    induction 1 as [|f l Hl IH Hf]; constructor; [exact IH|].
    eapply Forall_impl; [exact Hf|]. intros g Hfg a b Ha Hb.
    unfold feature_le in Hfg. rewrite Ha, Hb in Hfg. by apply Z.leb_le.
  - apply NoDup_remove_dups.
  - apply elem_of_remove_dups.
Defined.

(** ** Sample data *)

(** A point feature of the hurricane table: a position, a storm id and the
    time of the observation. *)
Definition storm_point (id : string) (time : Z) (c : Coord) : Feature :=
  mkFeature (Point c)
    (<["id" := VString id]> {["system:time_start" := VNumber time]}).

Definition atlantic : string := "NOAA/NHC/HURDAT2/atlantic".

(** Three observations of 2017 (two storms, one of them out of time order),
    one of 2016 and one at the first instant of 2018. *)
Definition small_table : list Feature :=
  [ storm_point "AL092017" 1503619200000 (-966, 270);
    storm_point "AL092017" 1503532800000 (-935, 250);
    storm_point "AL112017" 1504656000000 (-630, 181);
    storm_point "AL142016" 1475625600000 (-745, 200);
    storm_point "AL012018" 1514764800000 (-500, 300) ]%Z.

Definition small_catalog : gmap string (list Feature) :=
  {[ atlantic := small_table ]}.

(** A year with 1001 observations: a thousand of storm [AL092017] and then
    one of storm [AL112017]. *)
Definition long_table : list Feature :=
  replicate 1000 (storm_point "AL092017" 1503619200000 (-966, 270)%Z)
  ++ [storm_point "AL112017" 1504656000000 (-630, 181)%Z].

Definition long_catalog : gmap string (list Feature) :=
  {[ atlantic := long_table ]}.

(** What the query returns on [small_table] for 2017. *)
Definition small_points : list Feature :=
  [ storm_point "AL092017" 1503619200000 (-966, 270);
    storm_point "AL092017" 1503532800000 (-935, 250);
    storm_point "AL112017" 1504656000000 (-630, 181) ]%Z.

Definition small_lines : list Feature :=
  [ mkFeature (LineString [(-935, 250); (-966, 270)]%Z)
      {["id" := VString "AL092017"]};
    mkFeature (LineString [(-630, 181)]%Z)
      {["id" := VString "AL112017"]} ].

(** What the query returns on [long_table] for 2017: every point, and the
    line of the first storm only. *)
Definition long_lines : list Feature :=
  [ mkFeature (LineString (replicate 1000 (-966, 270)%Z))
      {["id" := VString "AL092017"]} ].

(** ** Sample environments *)

(** An environment without credentials in which the user declines the
    interactive authentication. *)
Definition declined_world : World :=
  mkWorld (λ _, false) (λ _, false) ∅ (λ _, EmptyString).

(** An environment with valid credentials and the small table. *)
Definition ready_world : World :=
  mkWorld (λ _, true) (λ _, true) small_catalog (λ _, "<map>").

(** An environment with valid credentials and the 1001-point table. *)
Definition long_world : World :=
  mkWorld (λ _, true) (λ _, true) long_catalog (λ _, "<map>").

(** An environment without credentials in which authentication succeeds and
    the retried initialization succeeds too. *)
Definition fresh_world : World :=
  mkWorld (λ t, bool_decide (CAuthenticate ∈ t)) (λ _, true) small_catalog
    (λ _, "<map>").


(** ** The properties as the specification words them *)

(** A storm id has exactly one line in [lines], and the vertices of that line
    are the coordinates of the id's points in ascending order of
    ['system:time_start']. *)
Definition has_one_sorted_line `{B : ee.Backend}
    (points lines : list Feature) (sid : Value) : Prop :=
  ∃ line pts,
    filter (λ l, ee.Feature_get l "id" = sid) lines = [line] ∧
    geometry line =
      LineString (flat_map (λ f, ee.Geometry_coordinates (geometry f)) pts) ∧
    pts ≡ₚ filter (λ p, get_id p = sid) points ∧
    StronglySorted (ee.key_le "system:time_start") pts.

(** The property as the specification words it: every storm id of the
    year's points has its line. *)
Definition one_line_per_storm_id `{B : ee.Backend}
    (catalog : gmap string (list Feature)) (dataset year : string) : Prop :=
  ∀ points lines sid,
    query_builder catalog dataset year = Some (points, lines) →
    sid ∈ get_id <$> points →
    has_one_sorted_line points lines sid.

(** *** Session Init *)

Definition is_Initialize (c : Call) : bool :=
  match c with CInitialize => true | _ => false end.

Definition is_Authenticate (c : Call) : bool :=
  match c with CAuthenticate => true | _ => false end.

(** How many of the calls satisfy [p]. *)
Definition count_calls (p : Call → bool) (calls : list Call) : nat :=
  length (List.filter p calls).

(** The property as the specification words it, for a run from the empty
    trace: the first call is an initialization; the fallback runs once and
    the initialization is retried once exactly when the first attempt fails;
    with valid credentials the fallback does not run; a failed retry is the
    outcome of the cell. *)
Definition fallback_then_retry (w : World) : Prop :=
  let run := session_init w [] in
  head run.2 = Some CInitialize ∧
  (Initialize_ok w [] = false ↔
     count_calls is_Authenticate run.2 = 1 ∧ count_calls is_Initialize run.2 = 2) ∧
  (Initialize_ok w [] = true → count_calls is_Authenticate run.2 = 0) ∧
  (Initialize_ok w [] = false →
   Initialize_ok w [CInitialize; CAuthenticate] = false →
   run.1 = Raised InitializeError).

(** *** Layer Renderer *)

(** The property as the specification words it: two layers differ in nothing
    but the rendering mode when they reference the same collection and carry
    the same style options. *)
Definition differ_only_in_rendering_mode (a b : Layer) : Prop :=
  ee_object a = ee_object b ∧ style_options a = style_options b.

(** *** The return value of [show] *)

(** The world with another return value for [show]. *)
Definition with_show_value (v : pdk.Deck → Widget) (w : World) : World :=
  mkWorld (Initialize_ok w) (Authenticate_ok w) (catalog w) v.

(** ** Further definitions *)

(** The Gregorian leap-year rule. *)
Definition is_leap_year (y : Z) : bool :=
  ((y mod 4 =? 0) && (negb (y mod 100 =? 0) || (y mod 400 =? 0)))%Z.

(** [p] holds of the [n] integers from [z] on. *)
Fixpoint all_from (n : nat) (z : Z) (p : Z → bool) : bool :=
  match n with
  | O => true
  | S n' => p z && all_from n' (z + 1)%Z p
  end.

(** The day of the era on which the [n]-th (March-based) year of the era
    begins. *)
Definition year_first_doe (n : Z) : Z :=
  (365 * n + n / 4 - n / 100 + n / 400)%Z.

(** The numerator of the year of the era in [Calendar.year_of_days]. *)
Definition year_numerator (doe : Z) : Z :=
  (doe - doe / 1460 + doe / 36524 - doe / 146096)%Z.

(** The check that the first and the last day of the [r]-th year of the era
    are given the year [r]. *)
Definition year_ends_ok (r : Z) : bool :=
  ((365 * r <=? year_numerator (year_first_doe r))
   && (year_numerator (year_first_doe (r + 1) - 1) <? 365 * (r + 1)))%Z.

(** The vertices of a feature's geometry. *)
Definition vertices (f : Feature) : list Coord :=
  ee.Geometry_coordinates (geometry f).

(** The feature is a single point, as the observations of the hurricane
    table are. *)
Definition is_Point (f : Feature) : Prop :=
  match geometry f with Point _ => True | _ => False end.

(** The decks shown by a sequence of calls, in order. *)
Definition shown (calls : list Call) : list pdk.Deck :=
  omap (λ c, match c with CShow d => Some d | _ => None end) calls.

(** What the query returns on [small_table] for 2016. *)
Definition small_points_2016 : list Feature :=
  [ storm_point "AL142016" 1475625600000 (-745, 200)%Z ].

Definition small_lines_2016 : list Feature :=
  [ mkFeature (LineString [(-745, 200)%Z]) {["id" := VString "AL142016"]} ].

(** Closed decidable facts are settled by evaluation. *)
Ltac by_computation := refine (bool_decide_unpack _ _); vm_compute; exact I.

(** * Proofs *)

(** ** The calendar: the year of a year's first instant *)

Section CalendarFacts.
Local Open Scope Z_scope.

Lemma jan1_ok_all r : 0 ≤ r < 400 → Calendar.jan1_ok r = true.
Proof.
  intros Hr.
  assert (Hall : forallb Calendar.jan1_ok (seqZ 0 400) = true) by (vm_compute; reflexivity).
  rewrite forallb_forall in Hall. apply Hall.
  apply list_elem_of_In, elem_of_seqZ. lia.
Qed.

Lemma year_of_days_era e doe :
  0 ≤ doe < 146097 →
  Calendar.year_of_days (e * 146097 + doe - 719468) =
    (let yoe := (doe - doe / 1460 + doe / 36524 - doe / 146096) / 365 in
     let y := yoe + e * 400 in
     let doy := doe - (365 * yoe + yoe / 4 - yoe / 100) in
     let mp := (5 * doy + 2) / 153 in
     let m := if mp <? 10 then mp + 3 else mp - 9 in
     if m <=? 2 then y + 1 else y).
Proof.
  intros Hd. unfold Calendar.year_of_days. cbv zeta.
  replace (e * 146097 + doe - 719468 + 719468) with (doe + e * 146097) by lia.
  rewrite Z.div_add by lia. rewrite (Z.div_small doe) by lia.
  replace (doe + e * 146097 - (0 + e) * 146097) with doe by lia.
  replace (0 + e) with e by lia. reflexivity.
Qed.

Lemma year_of_days_jan1 y :
  Calendar.year_of_days (Calendar.days_from_civil y 1 1) = y.
Proof.
  pose proof (Z.div_mod (y - 1) 400 ltac:(lia)) as Hdm.
  pose proof (Z.mod_pos_bound (y - 1) 400 ltac:(lia)) as Hr.
  set (e := (y - 1) / 400) in *. set (r := (y - 1) mod 400) in *.
  pose proof (jan1_ok_all r Hr) as Hok. unfold Calendar.jan1_ok in Hok.
  apply andb_prop in Hok as [Hok H3]. apply andb_prop in Hok as [H1 H2].
  apply Z.leb_le in H1. apply Z.ltb_lt in H2. apply Z.eqb_eq in H3.
  assert (Hdays : Calendar.days_from_civil y 1 1
                  = e * 146097 + Calendar.jan1_doe r - 719468).
  { unfold Calendar.days_from_civil, Calendar.jan1_doe.
    change (1 <=? 2) with true. change (2 <? 1) with false. cbv iota zeta.
    change ((153 * (1 + 9) + 2) / 5) with 306. fold e.
    replace (y - 1 - e * 400) with r by lia. lia. }
  rewrite Hdays, year_of_days_era by lia.
  unfold Calendar.year_in_era in H3. cbv zeta in *.
  destruct (_ <=? 2); lia.
Qed.

Lemma year_of_millis_year_start y :
  Calendar.year_of_millis (Calendar.year_start y) = y.
Proof.
  unfold Calendar.year_of_millis, Calendar.year_start,
    Calendar.millis_of_civil, Calendar.ms_per_day.
  rewrite Z.div_mul by lia. apply year_of_days_jan1.
Qed.

Example year_start_2017 : Calendar.year_start 2017 = 1483228800000.
Proof. reflexivity. Qed.

Example year_start_2018 : Calendar.year_start 2018 = 1514764800000.
Proof. reflexivity. Qed.

Example last_instant_of_2017 : Calendar.year_of_millis 1514764799999 = 2017.
Proof. reflexivity. Qed.

Example parse_year_2017 : ee.parse_year "2017" = Some 2017.
Proof. reflexivity. Qed.

Example parse_year_rejects : ee.parse_year "17" = None ∧ ee.parse_year "20x7" = None.
Proof. split; reflexivity. Qed.

(** [ee.Date(year).getRange('year')] is the year's own interval. *)
Lemma getRange_of_year s y :
  ee.parse_year s = Some y →
  ∃ date, ee.Date s = Some date ∧
    ee.Date_getRange_year date =
      mkDateRange (Calendar.year_start y) (Calendar.year_start (y + 1)).
Proof.
  intros Hs. exists (Calendar.year_start y). unfold ee.Date. rewrite Hs.
  split; [reflexivity|]. unfold ee.Date_getRange_year.
  by rewrite year_of_millis_year_start.
Qed.

End CalendarFacts.

(** ** Facts about the query *)

Section QueryFacts.
Context `{B : ee.Backend}.
Implicit Types (points lines hurricanes fc : list Feature) (sid : Value).

Lemma elem_of_FeatureCollection_filter flt fc f :
  f ∈ ee.FeatureCollection_filter flt fc ↔ flt f = true ∧ f ∈ fc.
Proof. exact (list_elem_of_filter (λ f, flt f = true) fc f). Qed.

Lemma Filter_date_true r f :
  ee.Filter_date r f = true ↔
  ∃ t, ee.Feature_get f "system:time_start" = VNumber t
       ∧ (range_start r ≤ t < range_end r)%Z.
Proof.
  unfold ee.Filter_date. split.
  - destruct (ee.Feature_get f "system:time_start") as [| |t]; try discriminate.
    intros [H1 H2]%andb_prop. exists t. split; [done|].
    apply Z.leb_le in H1. apply Z.ltb_lt in H2. lia.
  - intros (t & -> & H1 & H2). apply andb_true_intro.
    split; [by apply Z.leb_le | by apply Z.ltb_lt].
Qed.

Lemma Filter_eq_true name v f :
  ee.Filter_eq name v f = true ↔ ee.Feature_get f name = v.
Proof. unfold ee.Filter_eq. apply bool_decide_eq_true. Qed.

(** What a successful query consists of. *)
Lemma query_builder_Some catalog dataset year points lines :
  query_builder catalog dataset year = Some (points, lines) →
  ∃ hurricanes y,
    catalog !! dataset = Some hurricanes ∧ ee.parse_year year = Some y ∧
    points = ee.FeatureCollection_filter
               (ee.Filter_date (mkDateRange (Calendar.year_start y)
                                            (Calendar.year_start (y + 1))))
               hurricanes ∧
    lines = create_line points <$> storm_ids points.
Proof.
  unfold query_builder. intros Hq.
  destruct (catalog !! dataset) as [hurricanes|] eqn:Hc; [|discriminate].
  destruct (ee.parse_year year) as [y|] eqn:Hy.
  - destruct (getRange_of_year year y Hy) as (date & Hd & Hr).
    rewrite Hd, Hr in Hq. injection Hq as <- <-. by exists hurricanes, y.
  - unfold ee.Date in Hq. rewrite Hy in Hq. discriminate.
Qed.

Lemma create_line_id points sid :
  ee.Feature_get (create_line points sid) "id" = sid.
Proof.
  unfold create_line, ee.Feature_get, ee.Feature_set. simpl.
  by rewrite lookup_insert_eq.
Qed.

Lemma create_line_geometry points sid :
  geometry (create_line points sid) =
  LineString
    (flat_map (λ f, ee.Geometry_coordinates (geometry f))
       (ee.sort "system:time_start"
          (ee.FeatureCollection_filter (ee.Filter_eq "id" sid) points))).
Proof. reflexivity. Qed.

#[global] Instance create_line_inj points : Inj (=) (=) (create_line points).
Proof.
  intros s1 s2 Heq.
  by rewrite <- (create_line_id points s1), Heq, create_line_id.
Qed.

Lemma elem_of_storm_ids points sid :
  sid ∈ storm_ids points ↔
  sid ∈ get_id <$> ee.FeatureCollection_toList 1000 points.
Proof. unfold storm_ids. apply ee.distinct_elem_of. Qed.

Lemma NoDup_storm_ids points : NoDup (storm_ids points).
Proof. apply ee.distinct_NoDup. Qed.

Lemma length_storm_ids points :
  length (storm_ids points) ≤ length (ee.FeatureCollection_toList 1000 points).
Proof.
  rewrite <- (length_fmap get_id). apply submseteq_length, NoDup_submseteq.
  - apply NoDup_storm_ids.
  - intros sid. apply elem_of_storm_ids.
Qed.

Lemma line_ids points :
  (λ l, ee.Feature_get l "id") <$> (create_line points <$> storm_ids points)
  = storm_ids points.
Proof.
  rewrite <- list_fmap_compose. rewrite <- (list_fmap_id (storm_ids points)) at 2.
  apply list_fmap_ext. intros _ sid _. simpl. apply create_line_id.
Qed.

Lemma filter_eq_NoDup {A} `{EqDecision A} (l : list A) (x : A) :
  NoDup l → x ∈ l → filter (λ y, y = x) l = [x].
Proof.
  induction 1 as [|y l Hy Hl IH]; [by intros ?%elem_of_nil|].
  intros Hx. rewrite filter_cons. destruct (decide (y = x)) as [->|Hne].
  - f_equal. clear IH Hx. induction l as [|z l IHl]; [done|].
    apply not_elem_of_cons in Hy as [Hz Hy]. apply NoDup_cons in Hl as [_ Hl].
    rewrite filter_cons, decide_False by congruence. by apply IHl.
  - apply IH. apply elem_of_cons in Hx as [->|Hx]; [done|exact Hx].
Qed.

(** The lines that carry a given id. *)
Lemma lines_with_id points sid :
  filter (λ l, ee.Feature_get l "id" = sid)
    (create_line points <$> storm_ids points)
  = create_line points <$> filter (λ s, s = sid) (storm_ids points).
Proof.
  induction (storm_ids points) as [|s ids IH]; [done|].
  rewrite fmap_cons, !filter_cons, create_line_id.
  destruct (decide (s = sid)); rewrite IH; done.
Qed.


End QueryFacts.

(** ** The Query Builder's properties *)

Section QueryClaims.
Context `{B : ee.Backend}.
Implicit Types (points lines hurricanes : list Feature) (sid : Value).

Lemma filter_Filter_eq points sid :
  ee.FeatureCollection_filter (ee.Filter_eq "id" sid) points
  = filter (λ p, get_id p = sid) points.
Proof.
  unfold ee.FeatureCollection_filter. apply list_filter_iff.
  intros p. apply Filter_eq_true.
Qed.

(** X12. For every storm id that occurs among the first 1000 features of the
    year-filtered point set, the Query Builder produces exactly one line
    feature, and the vertex order of that line is the ascending order of the
    id's points by ['system:time_start']. *)
Theorem one_line_per_listed_storm_id catalog dataset year points lines sid :
  query_builder catalog dataset year = Some (points, lines) →
  sid ∈ get_id <$> take 1000 points →
  has_one_sorted_line points lines sid.
Proof.
  intros Hq Hsid.
  apply query_builder_Some in Hq as (hurricanes & y & _ & _ & _ & ->).
  exists (create_line points sid),
    (ee.sort "system:time_start" (filter (λ p, get_id p = sid) points)).
  split; [|split; [|split]].
  - rewrite lines_with_id, filter_eq_NoDup; [done|apply NoDup_storm_ids|].
    by apply elem_of_storm_ids.
  - by rewrite create_line_geometry, filter_Filter_eq.
  - apply ee.sort_Permutation.
  - apply ee.sort_ascending.
Qed.

(** C2. For a dataset id the service resolves and a four-digit year string,
    the points the Query Builder returns are exactly the events of the
    dataset whose timestamp [t] satisfies
    [year-01-01 <= t < (year+1)-01-01], kept in the dataset's order. *)
Theorem points_within_year catalog dataset year hurricanes y :
  catalog !! dataset = Some hurricanes →
  ee.parse_year year = Some y →
  ∃ points lines,
    query_builder catalog dataset year = Some (points, lines) ∧
    points `sublist_of` hurricanes ∧
    ∀ p, p ∈ points ↔
         p ∈ hurricanes ∧
         ∃ t, ee.Feature_get p "system:time_start" = VNumber t ∧
              (Calendar.year_start y ≤ t < Calendar.year_start (y + 1))%Z.
Proof.
  intros Hc Hy. destruct (getRange_of_year year y Hy) as (date & Hd & Hr).
  unfold query_builder. rewrite Hc, Hd, Hr. eexists _, _.
  split; [reflexivity|]. split.
  - apply sublist_filter.
  - intros p. rewrite elem_of_FeatureCollection_filter, Filter_date_true.
    simpl. tauto.
Qed.

(** C4. The storm ids are taken from at most the first 1000 features of the
    filtered points: there are at most 1000 lines, every line's id is the id
    of one of the first 1000 points, and a storm id that does not occur among
    the first 1000 points (so, in a year of more than 1000 points, one that
    occurs only beyond them) has no line feature. *)
Theorem storm_ids_from_first_1000 catalog dataset year points lines :
  query_builder catalog dataset year = Some (points, lines) →
  (λ l, ee.Feature_get l "id") <$> lines
    = ee.distinct (get_id <$> take 1000 points) ∧
  length lines ≤ 1000 ∧
  (∀ l, l ∈ lines → ee.Feature_get l "id" ∈ get_id <$> take 1000 points) ∧
  (∀ sid, sid ∉ get_id <$> take 1000 points →
          ∀ l, l ∈ lines → ee.Feature_get l "id" ≠ sid).
Proof.
  intros Hq.
  apply query_builder_Some in Hq as (hurricanes & y & _ & _ & _ & ->).
  assert (Hids : ∀ l, l ∈ create_line points <$> storm_ids points →
                      ee.Feature_get l "id" ∈ get_id <$> take 1000 points).
  { intros l (s & -> & Hs)%list_elem_of_fmap. rewrite create_line_id.
    by apply elem_of_storm_ids. }
  split; [apply line_ids|]. split; [|split].
  - rewrite length_fmap. etrans; [apply length_storm_ids|].
    unfold ee.FeatureCollection_toList. rewrite length_take. lia.
  - exact Hids.
  - intros sid Hout l Hl Heq. apply Hout. rewrite <- Heq. by apply Hids.
Qed.

(** C9. Every synthesized line feature carries an ['id'] attribute equal to
    the storm id it was built from; that id is the id of a point of the
    filtered set, no other storm id yields the same line, and no two lines
    carry the same id. *)
Theorem line_carries_storm_id catalog dataset year points lines :
  query_builder catalog dataset year = Some (points, lines) →
  NoDup ((λ l, ee.Feature_get l "id") <$> lines) ∧
  ∀ line, line ∈ lines →
    ∃ sid, line = create_line points sid ∧
           ee.Feature_get line "id" = sid ∧
           sid ∈ get_id <$> points ∧
           ∀ sid', line = create_line points sid' → sid' = sid.
Proof.
  intros Hq.
  apply query_builder_Some in Hq as (hurricanes & y & _ & _ & _ & ->).
  split.
  - rewrite line_ids. apply NoDup_storm_ids.
  - intros line (sid & -> & Hs)%list_elem_of_fmap. exists sid.
    split; [done|]. split; [apply create_line_id|]. split.
    + apply elem_of_storm_ids in Hs.
      apply list_elem_of_fmap in Hs as (p & -> & Hp).
      apply list_elem_of_fmap_2. by apply (subseteq_take 1000).
    + intros sid' Heq. symmetry. by apply (inj (create_line points)).
Qed.

End QueryClaims.

(** *** The properties on the sample tables *)

Example small_query :
  query_builder (B := reference_backend) small_catalog atlantic "2017" =
  Some (small_points, small_lines).
Proof. by_computation. Qed.

Example long_query :
  query_builder (B := reference_backend) long_catalog atlantic "2017" =
  Some (long_table, long_lines).
Proof. by_computation. Qed.

(** Under the reference service the property fails on the 1001-point year:
    storm [AL112017] is the id of the last point, and no line carries it. *)
Lemma one_line_per_storm_id_fails :
  ¬ one_line_per_storm_id (B := reference_backend) long_catalog atlantic "2017".
Proof.
  intros Hclaim.
  destruct (Hclaim long_table long_lines (VString "AL112017") long_query)
    as (line & pts & Hline & _).
  - by_computation.
  - vm_compute in Hline. discriminate Hline.
Qed.

Lemma one_line_per_listed_storm_id_witness :
  has_one_sorted_line (B := reference_backend)
    small_points small_lines (VString "AL092017").
Proof.
  apply (one_line_per_listed_storm_id (B := reference_backend)
           small_catalog atlantic "2017").
  - exact small_query.
  - by_computation.
Defined.

Lemma points_within_year_witness :
  ∃ points lines,
    query_builder (B := reference_backend) small_catalog atlantic "2017"
      = Some (points, lines) ∧
    points `sublist_of` small_table ∧
    ∀ p, p ∈ points ↔
         p ∈ small_table ∧
         ∃ t, ee.Feature_get p "system:time_start" = VNumber t ∧
              (Calendar.year_start 2017 ≤ t < Calendar.year_start (2017 + 1))%Z.
Proof.
  apply (points_within_year (B := reference_backend)
           small_catalog atlantic "2017" small_table 2017%Z).
  - reflexivity.
  - reflexivity.
Defined.

Lemma storm_ids_from_first_1000_witness :
  1000 < length long_table ∧
  VString "AL112017" ∈ get_id <$> drop 1000 long_table ∧
  ∀ l, l ∈ long_lines → ee.Feature_get l "id" ≠ VString "AL112017".
Proof.
  split; [vm_compute; lia|]. split; [by_computation|].
  apply (storm_ids_from_first_1000 (B := reference_backend)
           long_catalog atlantic "2017" long_table long_lines long_query).
  by_computation.
Defined.

Lemma line_carries_storm_id_witness :
  NoDup ((λ l, ee.Feature_get l "id") <$> small_lines).
Proof.
  apply (line_carries_storm_id (B := reference_backend)
           small_catalog atlantic "2017" small_points small_lines).
  exact small_query.
Defined.

(** The single-point storm of the small table: one vertex, no segment. *)
Example single_point_line :
  create_line (B := reference_backend) small_points (VString "AL112017") =
  mkFeature (LineString [(-630, 181)%Z]) {["id" := VString "AL112017"]}.
Proof. vm_compute. reflexivity. Qed.

(** An id with no point at all: the line has no vertex. *)
Example no_point_line :
  create_line (B := reference_backend) small_points (VString "AL992017") =
  mkFeature (LineString []) {["id" := VString "AL992017"]}.
Proof. vm_compute. reflexivity. Qed.

(** ** Session Init *)

Example ready_session :
  session_init ready_world [] = (Returned tt, [CInitialize]).
Proof. reflexivity. Qed.

Example fresh_session :
  session_init fresh_world [] =
  (Returned tt, [CInitialize; CAuthenticate; CInitialize]).
Proof. reflexivity. Qed.

Example declined_session :
  session_init declined_world [] =
  (Raised AuthenticateError, [CInitialize; CAuthenticate]).
Proof. reflexivity. Qed.

(** The three ways the cell can run. *)
Lemma session_init_cases w t0 :
  session_init w t0 =
    if Initialize_ok w t0 then (Returned tt, t0 ++ [CInitialize])
    else if Authenticate_ok w (t0 ++ [CInitialize]) then
      (if Initialize_ok w (t0 ++ [CInitialize; CAuthenticate])
       then Returned tt else Raised InitializeError,
       t0 ++ [CInitialize; CAuthenticate; CInitialize])
    else (Raised AuthenticateError, t0 ++ [CInitialize; CAuthenticate]).
Proof.
  unfold session_init, try_except, ee_Initialize, ee_Authenticate, mbind, M_bind.
  destruct (Initialize_ok w t0); [reflexivity|].
  rewrite <- !(assoc_L (++)). simpl.
  destruct (Authenticate_ok w (t0 ++ [CInitialize])); reflexivity.
Qed.

(** C3 as the specification words it fails where the user declines the
    interactive authentication: the fallback has run once, and the
    initialization is not retried. *)
Lemma fallback_then_retry_fails : ¬ fallback_then_retry declined_world.
Proof.
  intros (_ & Hiff & _). destruct Hiff as [Hretry _].
  destruct (Hretry eq_refl) as [_ Hcount]. vm_compute in Hcount. discriminate.
Qed.

(** C3 (as amended). Session Init first attempts initialization. If and only
    if that attempt fails it invokes the interactive authentication fallback,
    exactly once. If the fallback returns, initialization is retried exactly
    once, with no further retries, and the outcome of the retry is the
    outcome of the cell, so a failed retry propagates. If the fallback itself
    raises, its exception propagates and initialization is not retried. With
    valid credentials the fallback is never invoked. *)
Theorem session_init_protocol w t0 :
  ∃ out calls,
    session_init w t0 = (out, t0 ++ calls) ∧
    head calls = Some CInitialize ∧
    count_calls is_Authenticate calls = (if Initialize_ok w t0 then 0 else 1) ∧
    count_calls is_Initialize calls =
      (if Initialize_ok w t0 then 1
       else if Authenticate_ok w (t0 ++ [CInitialize]) then 2 else 1) ∧
    out =
      (if Initialize_ok w t0 then Returned tt
       else if Authenticate_ok w (t0 ++ [CInitialize]) then
              if Initialize_ok w (t0 ++ [CInitialize; CAuthenticate])
              then Returned tt else Raised InitializeError
            else Raised AuthenticateError).
Proof.
  rewrite session_init_cases.
  destruct (Initialize_ok w t0);
    [|destruct (Authenticate_ok w (t0 ++ [CInitialize]))];
    eexists _, _; repeat split; reflexivity.
Qed.

(** ** Layer Renderer *)

(** C5 as the specification words it fails for both collections: the raster
    layer passes a [vis_params] colour, the vector layer passes style
    keywords instead. *)
Lemma differ_only_in_rendering_mode_fails :
  ¬ differ_only_in_rendering_mode
      (raster.lines_layer small_lines) (vector.lines_layer small_lines)
  ∧ ¬ differ_only_in_rendering_mode
      (raster.points_layer small_points) (vector.points_layer small_points).
Proof.
  split; intros [_ Hstyle]; apply (f_equal fst) in Hstyle; discriminate Hstyle.
Qed.

(** C5 (as amended). For each of the two collections, the layer constructed
    with [as_vector=True] and the one with [as_vector] unset reference the
    same collection and carry the same id; the first is rendered as vector
    and the second as raster, and they differ in their style options as
    well. *)
Theorem same_collection_other_mode (points lines : list Feature) :
  (ee_object (raster.lines_layer lines) = ee_object (vector.lines_layer lines) ∧
   layer_id (raster.lines_layer lines) = layer_id (vector.lines_layer lines) ∧
   rendering_mode (raster.lines_layer lines) = Raster ∧
   rendering_mode (vector.lines_layer lines) = Vector ∧
   style_options (raster.lines_layer lines)
     ≠ style_options (vector.lines_layer lines))
  ∧
  (ee_object (raster.points_layer points) = ee_object (vector.points_layer points) ∧
   layer_id (raster.points_layer points) = layer_id (vector.points_layer points) ∧
   rendering_mode (raster.points_layer points) = Raster ∧
   rendering_mode (vector.points_layer points) = Vector ∧
   style_options (raster.points_layer points)
     ≠ style_options (vector.points_layer points)).
Proof.
  split; (repeat split; [by_computation..|]);
    intros Hstyle; apply (f_equal fst) in Hstyle; discriminate Hstyle.
Qed.

(** ** The notebook as a whole *)

Section NotebookFacts.
Context `{B : ee.Backend}.
Implicit Types (points lines hurricanes : list Feature) (w : World).

(** A run in which the session is established and the query resolves shows
    the raster deck and then the vector deck, and ends with the names of the
    vector cells bound. *)
Lemma notebook_run w t0 t1 points lines :
  session_init w t0 = (Returned tt, t1) →
  query_builder (catalog w) atlantic "2017" = Some (points, lines) →
  notebook w t0 =
    (Returned
       (nb.mkGlobals "2017" points lines
          (vector.lines_layer lines) (vector.points_layer points)
          vector.view_state (vector.r points lines)),
     t1 ++ [CShow (raster.r points lines); CShow (vector.r points lines)]).
Proof.
  intros Hs Hq. unfold notebook, query_cell, mbind, M_bind. rewrite Hs.
  change "NOAA/NHC/HURDAT2/atlantic" with atlantic. rewrite Hq.
  unfold Deck_show, mret, M_ret. by rewrite <- (assoc_L (++)).
Qed.

Lemma session_init_show_value v w t0 :
  session_init (with_show_value v w) t0 = session_init w t0.
Proof. by rewrite !session_init_cases. Qed.

(** The year 2017 of a dataset the service resolves. *)
Lemma query_2017 (catalog : gmap string (list Feature)) hurricanes :
  catalog !! atlantic = Some hurricanes →
  ∃ points lines,
    query_builder catalog atlantic "2017" = Some (points, lines) ∧
    lines = create_line points <$> storm_ids points.
Proof.
  intros Hc. destruct (getRange_of_year "2017" 2017%Z eq_refl) as (date & Hd & Hr).
  unfold query_builder. rewrite Hc, Hd. eexists _, _. split; reflexivity.
Qed.

End NotebookFacts.

Section NotebookClaims.
Context `{B : ee.Backend}.
Implicit Types (points lines hurricanes : list Feature) (w : World).

(** What holds of the 2017 scenario for any content of the dataset, in a run
    whose session is established: two decks of two layers over the view
    (36, -53, 3), at most as many lines as points, and the lines carrying the
    distinct storm ids of the first 1000 points. *)
Theorem scenario_2017 w t0 t1 hurricanes :
  catalog w !! atlantic = Some hurricanes →
  session_init w t0 = (Returned tt, t1) →
  ∃ points lines g d1 d2 points_layer lines_layer,
    query_builder (catalog w) atlantic "2017" = Some (points, lines) ∧
    notebook w t0 = (Returned g, t1 ++ [CShow d1; CShow d2]) ∧
    pdk.layers d1 = [points_layer; lines_layer] ∧
    ee_object points_layer = points ∧
    ee_object lines_layer = lines ∧
    vis_params points_layer = Some {["color" := PyStr "black"]} ∧
    vis_params lines_layer = Some {["color" := PyStr "red"]} ∧
    pdk.initial_view_state d1 = pdk.mkViewState 36 (-53) 3 ∧
    pdk.paint_order d1 = [Some (PyStr "points"); Some (PyStr "tracks")] ∧
    ee_object <$> pdk.layers d2 = [lines; points] ∧
    (λ l, kwargs l !! "get_line_color") <$> take 1 (pdk.layers d2)
      = [Some (PyList [255; 0; 0]%Z)] ∧
    (λ l, kwargs l !! "get_fill_color") <$> drop 1 (pdk.layers d2)
      = [Some (PyList [0; 0; 0]%Z)] ∧
    pdk.initial_view_state d2 = pdk.mkViewState 36 (-53) 3 ∧
    pdk.paint_order d2 = [Some (PyStr "tracks"); Some (PyStr "points")] ∧
    length lines ≤ length points ∧
    (λ l, ee.Feature_get l "id") <$> lines
      = ee.distinct (get_id <$> take 1000 points) ∧
    (length points ≤ 1000 →
     (λ l, ee.Feature_get l "id") <$> lines = ee.distinct (get_id <$> points)).
Proof.
  intros Hc Hs. destruct (query_2017 (catalog w) hurricanes Hc)
    as (points & lines & Hq & Hlines).
  exists points, lines. eexists _, _, _, _, _.
  split; [exact Hq|]. split; [exact (notebook_run w t0 t1 points lines Hs Hq)|].
  do 12 (split; [reflexivity|]).
  assert (Hids : (λ l, ee.Feature_get l "id") <$> lines
                 = ee.distinct (get_id <$> take 1000 points))
    by (rewrite Hlines; apply line_ids).
  split; [|split; [exact Hids|]].
  - rewrite Hlines, length_fmap. etrans; [apply length_storm_ids|].
    unfold ee.FeatureCollection_toList. rewrite length_take. lia.
  - intros Hlen. by rewrite Hids, take_ge.
Qed.

(** C8. The value that [show] returns is not used: a run of the notebook
    under any other return value of [show] ends with the same outcome, the
    same bound names and the same trace of calls. What [show] does is its
    effect, the rendering recorded in the trace. *)
Theorem show_value_unused (v : pdk.Deck → Widget) w t0 :
  notebook (with_show_value v w) t0 = notebook w t0 ∧
  ∀ d, (Deck_show d w t0).2 = t0 ++ [CShow d].
Proof.
  split; [|reflexivity].
  unfold notebook, query_cell, mbind, M_bind. rewrite session_init_show_value.
  destruct (session_init w t0) as [[[]|e] t1]; [|reflexivity].
  change (catalog (with_show_value v w)) with (catalog w).
  destruct (query_builder (catalog w) "NOAA/NHC/HURDAT2/atlantic" "2017")
    as [[points lines]|]; reflexivity.
Qed.

(** C10. The two renders pass the same two collections in opposite orders:
    the raster deck lists the points layer before the lines layer, the vector
    deck lists the lines layer before the points layer, so the paint order of
    the second render is the reverse of the first. *)
Theorem renders_in_opposite_orders w t0 t1 points lines :
  session_init w t0 = (Returned tt, t1) →
  query_builder (catalog w) atlantic "2017" = Some (points, lines) →
  ∃ g d1 d2,
    notebook w t0 = (Returned g, t1 ++ [CShow d1; CShow d2]) ∧
    ee_object <$> pdk.layers d1 = [points; lines] ∧
    ee_object <$> pdk.layers d2 = [lines; points] ∧
    layer_id <$> pdk.layers d1 = [Some (PyStr "points"); Some (PyStr "tracks")] ∧
    layer_id <$> pdk.layers d2 = [Some (PyStr "tracks"); Some (PyStr "points")] ∧
    pdk.paint_order d2 = reverse (pdk.paint_order d1).
Proof.
  intros Hs Hq. eexists _, _, _.
  split; [exact (notebook_run w t0 t1 points lines Hs Hq)|].
  repeat split.
Qed.

End NotebookClaims.

(** *** The notebook on the sample worlds *)

Example show_returns_show_value (d : pdk.Deck) :
  (Deck_show d (with_show_value (λ _, "a") ready_world) []).1 = Returned "a" ∧
  (Deck_show d (with_show_value (λ _, "b") ready_world) []).1 = Returned "b".
Proof. split; reflexivity. Qed.

Example declined_notebook :
  notebook (B := reference_backend) declined_world [] =
  (Raised AuthenticateError, [CInitialize; CAuthenticate]).
Proof. reflexivity. Qed.

Lemma scenario_2017_witness :
  ∃ points lines g d1 d2,
    query_builder (B := reference_backend) small_catalog atlantic "2017"
      = Some (points, lines) ∧
    notebook (B := reference_backend) ready_world []
      = (Returned g, [CInitialize] ++ [CShow d1; CShow d2]) ∧
    length lines ≤ length points.
Proof.
  destruct (scenario_2017 (B := reference_backend) ready_world []
              [CInitialize] small_table eq_refl eq_refl)
    as (points & lines & g & d1 & d2 & pl & ll & Hq & Hrun & H).
  exists points, lines, g, d1, d2. split; [exact Hq|]. split; [exact Hrun|].
  apply H.
Defined.

Lemma renders_in_opposite_orders_witness :
  ∃ g d1 d2,
    notebook (B := reference_backend) fresh_world []
      = (Returned g,
         [CInitialize; CAuthenticate; CInitialize] ++ [CShow d1; CShow d2]) ∧
    ee_object <$> pdk.layers d1 = [small_points; small_lines] ∧
    ee_object <$> pdk.layers d2 = [small_lines; small_points].
Proof.
  destruct (renders_in_opposite_orders (B := reference_backend) fresh_world []
              [CInitialize; CAuthenticate; CInitialize]
              small_points small_lines eq_refl small_query)
    as (g & d1 & d2 & Hrun & H1 & H2 & _).
  by exists g, d1, d2.
Defined.

(** * Further properties *)

(** ** The calendar year of any instant *)

Section CalendarYear.
Local Open Scope Z_scope.

Lemma days_from_civil_jan1 y :
  Calendar.days_from_civil y 1 1 =
  365 * (y - 1) + (y - 1) / 4 - (y - 1) / 100 + (y - 1) / 400 - 719162.
Proof.
  unfold Calendar.days_from_civil.
  change (1 <=? 2) with true. change (2 <? 1) with false. cbv iota zeta.
  change ((153 * (1 + 9) + 2) / 5) with 306.
  Z.div_mod_to_equations. lia.
Qed.

Lemma year_start_step y :
  Calendar.year_start (y + 1) - Calendar.year_start y =
  (if is_leap_year y then 366 else 365) * Calendar.ms_per_day.
Proof.
  unfold Calendar.year_start, Calendar.millis_of_civil, is_leap_year.
  rewrite !days_from_civil_jan1. replace (y + 1 - 1) with y by lia.
  rewrite <- Z.mul_sub_distr_r. f_equal.
  destruct (y mod 4 =? 0) eqn:H4, (y mod 100 =? 0) eqn:H100,
    (y mod 400 =? 0) eqn:H400; simpl;
    rewrite ?Z.eqb_eq, ?Z.eqb_neq in *; Z.div_mod_to_equations; lia.
Qed.

Lemma year_start_lt y : Calendar.year_start y < Calendar.year_start (y + 1).
Proof.
  pose proof (year_start_step y) as H. unfold Calendar.ms_per_day in H.
  destruct (is_leap_year y); lia.
Qed.

Lemma year_start_mono y1 y2 :
  y1 ≤ y2 → Calendar.year_start y1 ≤ Calendar.year_start y2.
Proof.
  intros H. replace y2 with (y1 + Z.of_nat (Z.to_nat (y2 - y1))) by lia.
  induction (Z.to_nat (y2 - y1)) as [|n IH]; [by rewrite Z.add_0_r|].
  etrans; [exact IH|]. rewrite Nat2Z.inj_succ.
  replace (y1 + Z.succ (Z.of_nat n)) with (y1 + Z.of_nat n + 1) by lia.
  apply Z.lt_le_incl, year_start_lt.
Qed.

(** Four hundred years are 146097 days. *)
Lemma days_from_civil_era k e :
  Calendar.days_from_civil (k + e * 400) 1 1
  = Calendar.days_from_civil k 1 1 + e * 146097.
Proof.
  unfold Calendar.days_from_civil.
  change (1 <=? 2) with true. change (2 <? 1) with false. cbv iota zeta.
  replace (k + e * 400 - 1) with (k - 1 + e * 400) by lia.
  rewrite Z.div_add by lia. set (q := (k - 1) / 400).
  replace (k - 1 + e * 400 - (q + e) * 400) with (k - 1 - q * 400) by lia.
  lia.
Qed.

Lemma all_from_spec n z p k :
  all_from n z p = true → z ≤ k < z + Z.of_nat n → p k = true.
Proof.
  revert z. induction n as [|n IH]; intros z Hall Hk; [lia|].
  simpl in Hall. apply andb_prop in Hall as [Hz Hall].
  destruct (decide (k = z)) as [->|Hne]; [done|].
  apply (IH (z + 1)); [done|lia].
Qed.

Lemma year_ends_ok_all r : 0 ≤ r < 400 → year_ends_ok r = true.
Proof.
  intros Hr.
  assert (Hall : all_from 400 0 year_ends_ok = true) by (vm_compute; reflexivity).
  apply (all_from_spec _ _ _ r) in Hall; [done|lia].
Qed.

Lemma year_numerator_step d :
  0 ≤ d → d + 1 < 146097 → year_numerator d ≤ year_numerator (d + 1).
Proof.
  intros H0 H1. unfold year_numerator.
  Z.div_mod_to_equations. lia.
Qed.

Lemma year_numerator_mono d d' :
  0 ≤ d ≤ d' → d' < 146097 → year_numerator d ≤ year_numerator d'.
Proof.
  intros [H0 Hle] H1. replace d' with (d + Z.of_nat (Z.to_nat (d' - d))) in * by lia.
  induction (Z.to_nat (d' - d)) as [|n IH]; [by rewrite Z.add_0_r|].
  rewrite Nat2Z.inj_succ in *. etrans; [apply IH; lia|].
  replace (d + Z.succ (Z.of_nat n)) with (d + Z.of_nat n + 1) by lia.
  apply year_numerator_step; lia.
Qed.

Lemma year_first_doe_step n : 0 ≤ n → year_first_doe n < year_first_doe (n + 1).
Proof. intros Hn. unfold year_first_doe. Z.div_mod_to_equations. lia. Qed.

Lemma find_year doe :
  0 ≤ doe < 146097 →
  ∃ r, 0 ≤ r < 400 ∧ year_first_doe r ≤ doe < year_first_doe (r + 1).
Proof.
  intros Hd.
  assert (Hn : ∀ n : nat, doe < year_first_doe (Z.of_nat n) →
            ∃ r, 0 ≤ r < Z.of_nat n ∧ year_first_doe r ≤ doe < year_first_doe (r + 1)).
  { induction n as [|n IH].
    - change (year_first_doe (Z.of_nat 0)) with 0. lia.
    - intros Hlt. destruct (Z_lt_le_dec doe (year_first_doe (Z.of_nat n))) as [Hl|Hg].
      + destruct (IH Hl) as (r & Hr & Hb). exists r. split; [lia|done].
      + exists (Z.of_nat n). rewrite Nat2Z.inj_succ in Hlt.
        replace (Z.succ (Z.of_nat n)) with (Z.of_nat n + 1) in Hlt by lia.
        split; [lia|]. split; [done|done]. }
  destruct (Hn 400%nat) as (r & Hr & Hb).
  - change (year_first_doe (Z.of_nat 400)) with 146097. lia.
  - exists r. split; [lia|done].
Qed.

Lemma year_in_era_of r doe :
  0 ≤ r < 400 → year_first_doe r ≤ doe < year_first_doe (r + 1) →
  Calendar.year_in_era doe = if doe - year_first_doe r <? 306 then r else r + 1.
Proof.
  intros Hr Hb.
  assert (Hdoe : 0 ≤ doe < 146097).
  { pose proof (year_first_doe_step r). unfold year_first_doe in *.
    Z.div_mod_to_equations. lia. }
  assert (Hyoe : year_numerator doe / 365 = r).
  { pose proof (year_ends_ok_all r Hr) as Hok. unfold year_ends_ok in Hok.
    apply andb_prop in Hok as [H1 H2]. apply Z.leb_le in H1. apply Z.ltb_lt in H2.
    pose proof (year_numerator_mono (year_first_doe r) doe) as Hm1.
    pose proof (year_numerator_mono doe (year_first_doe (r + 1) - 1)) as Hm2.
    assert (0 ≤ year_first_doe r) by (unfold year_first_doe; Z.div_mod_to_equations; lia).
    assert (year_first_doe (r + 1) - 1 < 146097)
      by (unfold year_first_doe; Z.div_mod_to_equations; lia).
    symmetry. apply (Z.div_unique _ _ _ (year_numerator doe - 365 * r)); lia. }
  unfold Calendar.year_in_era. cbv zeta. fold (year_numerator doe). rewrite Hyoe.
  unfold year_first_doe in *.
  destruct (doe - _ <? 306) eqn:Hd; [apply Z.ltb_lt in Hd|apply Z.ltb_ge in Hd];
    destruct (_ <? 10) eqn:Hmp; [apply Z.ltb_lt in Hmp|apply Z.ltb_ge in Hmp| apply Z.ltb_lt in Hmp|apply Z.ltb_ge in Hmp];
    destruct (_ <=? 2) eqn:Hm; [apply Z.leb_le in Hm|apply Z.leb_gt in Hm|apply Z.leb_le in Hm|apply Z.leb_gt in Hm|apply Z.leb_le in Hm|apply Z.leb_gt in Hm|apply Z.leb_le in Hm|apply Z.leb_gt in Hm];
    Z.div_mod_to_equations; lia.
Qed.

Lemma day_of_era_in_year doe :
  0 ≤ doe < 146097 →
  Calendar.days_from_civil (Calendar.year_in_era doe) 1 1 + 719468 ≤ doe
  < Calendar.days_from_civil (Calendar.year_in_era doe + 1) 1 1 + 719468.
Proof.
  intros Hd. destruct (find_year doe Hd) as (r & Hr & Hb).
  rewrite (year_in_era_of r doe Hr Hb), !days_from_civil_jan1.
  unfold year_first_doe in *.
  destruct (doe - _ <? 306) eqn:Hlt;
    [apply Z.ltb_lt in Hlt|apply Z.ltb_ge in Hlt];
    Z.div_mod_to_equations; lia.
Qed.

Lemma year_of_days_in_era e doe :
  0 ≤ doe < 146097 →
  Calendar.year_of_days (e * 146097 + doe - 719468)
  = Calendar.year_in_era doe + e * 400.
Proof.
  intros Hd. rewrite year_of_days_era by done.
  unfold Calendar.year_in_era. cbv zeta. destruct (_ <=? 2); lia.
Qed.

Lemma year_of_days_bounds z :
  Calendar.days_from_civil (Calendar.year_of_days z) 1 1 ≤ z
  < Calendar.days_from_civil (Calendar.year_of_days z + 1) 1 1.
Proof.
  pose proof (Z.div_mod (z + 719468) 146097 ltac:(lia)) as Hdm.
  pose proof (Z.mod_pos_bound (z + 719468) 146097 ltac:(lia)) as Hr.
  set (e := (z + 719468) / 146097) in *.
  set (doe := (z + 719468) mod 146097) in *.
  replace (Calendar.year_of_days z)
    with (Calendar.year_of_days (e * 146097 + doe - 719468)) by (f_equal; lia).
  rewrite year_of_days_in_era by done.
  replace (Calendar.year_in_era doe + e * 400 + 1)
    with (Calendar.year_in_era doe + 1 + e * 400) by lia.
  rewrite !days_from_civil_era.
  pose proof (day_of_era_in_year doe Hr) as [H1 H2]. lia.
Qed.

Lemma year_of_millis_bounds t :
  Calendar.year_start (Calendar.year_of_millis t) ≤ t
  < Calendar.year_start (Calendar.year_of_millis t + 1).
Proof.
  unfold Calendar.year_start, Calendar.millis_of_civil, Calendar.year_of_millis.
  pose proof (year_of_days_bounds (t / Calendar.ms_per_day)) as Hb.
  unfold Calendar.ms_per_day in *.
  pose proof (Z.div_mod t 86400000 ltac:(lia)) as Hdm.
  pose proof (Z.mod_pos_bound t 86400000 ltac:(lia)) as Hr.
  lia.
Qed.

Lemma year_of_millis_unique y t :
  Calendar.year_start y ≤ t < Calendar.year_start (y + 1) →
  Calendar.year_of_millis t = y.
Proof.
  intros [Hlo Hhi]. pose proof (year_of_millis_bounds t) as [Hlo' Hhi'].
  destruct (Z.lt_trichotomy (Calendar.year_of_millis t) y) as [Hlt|[Heq|Hgt]];
    [|done|].
  - pose proof (year_start_mono (Calendar.year_of_millis t + 1) y ltac:(lia)). lia.
  - pose proof (year_start_mono (y + 1) (Calendar.year_of_millis t) ltac:(lia)). lia.
Qed.

(** X1. [getRange('year')] of any instant is an interval that contains the
    instant, and it is the only interval from one year's first instant to the
    next year's that does. *)
Theorem range_of_year_contains_date (t : Z) :
  range_start (ee.Date_getRange_year t) ≤ t
    < range_end (ee.Date_getRange_year t) ∧
  ∀ y, Calendar.year_start y ≤ t < Calendar.year_start (y + 1) →
       ee.Date_getRange_year t
       = mkDateRange (Calendar.year_start y) (Calendar.year_start (y + 1)).
Proof.
  split; [apply year_of_millis_bounds|].
  intros y Hy. unfold ee.Date_getRange_year.
  by rewrite (year_of_millis_unique y t Hy).
Qed.

(** X2. The interval of [ee.Date(year).getRange('year')] is 365 days long,
    and 366 days in a leap year. *)
Theorem range_of_year_length s y :
  ee.parse_year s = Some y →
  ∃ date, ee.Date s = Some date ∧
    range_end (ee.Date_getRange_year date)
      - range_start (ee.Date_getRange_year date)
    = (if is_leap_year y then 366 else 365) * Calendar.ms_per_day.
Proof.
  intros Hs. destruct (getRange_of_year s y Hs) as (date & Hd & Hr).
  exists date. split; [done|]. rewrite Hr. simpl. apply year_start_step.
Qed.

End CalendarYear.

Lemma range_of_year_length_witness :
  ∃ date, ee.Date "2016" = Some date ∧
    (range_end (ee.Date_getRange_year date)
       - range_start (ee.Date_getRange_year date)
     = (if is_leap_year 2016 then 366 else 365) * Calendar.ms_per_day)%Z.
Proof. apply (range_of_year_length "2016" 2016%Z). reflexivity. Defined.

(** ** The year filter and the calendar *)

Section YearFilter.
Context `{B : ee.Backend}.
Implicit Types (points lines hurricanes : list Feature) (sid : Value).

Lemma elem_of_year_points catalog dataset year points lines y p :
  query_builder catalog dataset year = Some (points, lines) →
  ee.parse_year year = Some y →
  p ∈ points →
  ∃ t, ee.Feature_get p "system:time_start" = VNumber t ∧
       Calendar.year_of_millis t = y.
Proof.
  intros Hq Hy Hp.
  apply query_builder_Some in Hq as (hurricanes & y' & _ & Hy' & -> & _).
  rewrite Hy in Hy'. injection Hy' as <-.
  apply elem_of_FeatureCollection_filter in Hp as [Hf _].
  apply Filter_date_true in Hf as (t & Ht & Hr). exists t. split; [done|].
  by apply year_of_millis_unique.
Qed.

(** X3. The points of a year are exactly the events of the dataset whose
    timestamp falls in that calendar year (UTC). *)
Theorem points_of_calendar_year catalog dataset year hurricanes y :
  catalog !! dataset = Some hurricanes →
  ee.parse_year year = Some y →
  ∃ points lines,
    query_builder catalog dataset year = Some (points, lines) ∧
    ∀ p, p ∈ points ↔
         p ∈ hurricanes ∧
         ∃ t, ee.Feature_get p "system:time_start" = VNumber t ∧
              Calendar.year_of_millis t = y.
Proof.
  intros Hc Hy. destruct (getRange_of_year year y Hy) as (date & Hd & Hr).
  unfold query_builder. rewrite Hc, Hd, Hr. eexists _, _.
  split; [reflexivity|]. intros p.
  rewrite elem_of_FeatureCollection_filter, Filter_date_true. simpl. split.
  - intros [(t & Ht & Hin) Hp]. split; [done|]. exists t. split; [done|].
    by apply year_of_millis_unique.
  - intros [Hp (t & Ht & <-)]. split; [|done]. exists t. split; [done|].
    apply year_of_millis_bounds.
Qed.

(** X4. The point sets of two different years of a dataset share no
    feature. *)
Theorem years_share_no_point catalog dataset year1 year2 y1 y2
    points1 lines1 points2 lines2 p :
  query_builder catalog dataset year1 = Some (points1, lines1) →
  query_builder catalog dataset year2 = Some (points2, lines2) →
  ee.parse_year year1 = Some y1 →
  ee.parse_year year2 = Some y2 →
  y1 ≠ y2 →
  p ∈ points1 → p ∉ points2.
Proof.
  intros Hq1 Hq2 Hy1 Hy2 Hne Hp1 Hp2.
  destruct (elem_of_year_points _ _ _ _ _ _ _ Hq1 Hy1 Hp1) as (t1 & Ht1 & <-).
  destruct (elem_of_year_points _ _ _ _ _ _ _ Hq2 Hy2 Hp2) as (t2 & Ht2 & <-).
  rewrite Ht1 in Ht2. by injection Ht2 as ->.
Qed.

End YearFilter.

(** ** The vertices of the lines *)

Section LineVertices.
Context `{B : ee.Backend}.
Implicit Types (points lines hurricanes pts : list Feature) (sid : Value).

Lemma vertices_create_line points sid :
  vertices (create_line points sid) =
  flat_map vertices
    (ee.sort "system:time_start" (filter (λ p, get_id p = sid) points)).
Proof. unfold vertices at 1. by rewrite create_line_geometry, filter_Filter_eq. Qed.

Lemma line_vertices_perm points sid :
  vertices (create_line points sid)
  ≡ₚ flat_map vertices (filter (λ p, get_id p = sid) points).
Proof.
  rewrite vertices_create_line.
  apply Permutation_flat_map, ee.sort_Permutation.
Qed.

Lemma length_flat_map_points pts :
  Forall is_Point pts → length (flat_map vertices pts) = length pts.
Proof.
  induction 1 as [|p pts Hp _ IH]; [done|].
  simpl. rewrite length_app, IH. unfold is_Point in Hp. unfold vertices.
  destruct (geometry p); simpl; [done|contradiction..].
Qed.

Lemma length_line_vertices points sid :
  Forall is_Point points →
  length (vertices (create_line points sid))
  = length (filter (λ p, get_id p = sid) points).
Proof.
  intros Hp. rewrite line_vertices_perm.
  apply length_flat_map_points.
  apply Forall_forall. intros p [_ Hin]%list_elem_of_filter.
  by eapply Forall_forall in Hp.
Qed.

Lemma filter_all {A} (P : A → Prop) `{∀ x, Decision (P x)} (l : list A) :
  Forall P l → filter P l = l.
Proof.
  induction 1 as [|x l Hx _ IH]; [done|].
  by rewrite filter_cons, decide_True, IH.
Qed.

Lemma indicator_sum (ids : list Value) (x : Value) :
  NoDup ids →
  sum_list_with (λ s, if decide (x = s) then 1 else 0) ids
  = if decide (x ∈ ids) then 1 else 0.
Proof.
  induction 1 as [|s ids Hs Hnd IH]; [done|].
  simpl. rewrite IH. destruct (decide (x = s)) as [->|Hne].
  - rewrite (decide_False (P := s ∈ ids)) by done.
    rewrite decide_True by apply list_elem_of_here. done.
  - destruct (decide (x ∈ ids)).
    + rewrite decide_True by (by apply list_elem_of_further). done.
    + rewrite decide_False; [done|]. by intros [?|?]%elem_of_cons.
Qed.

(** Counting the features id by id, over ids that do not repeat, counts the
    features whose id is listed. *)
Lemma count_by_id (l : list Feature) (ids : list Value) :
  NoDup ids →
  sum_list_with (λ s, length (filter (λ p, get_id p = s) l)) ids
  = length (filter (λ p, get_id p ∈ ids) l).
Proof.
  intros Hnd. induction l as [|p l IH].
  - simpl. induction ids as [|s ids IHids]; [done|].
    simpl. apply IHids. by apply NoDup_cons in Hnd as [_ ?].
  - rewrite (filter_cons (λ p, get_id p ∈ ids)).
    transitivity
      (sum_list_with (λ s, if decide (get_id p = s) then 1 else 0) ids
       + sum_list_with (λ s, length (filter (λ p, get_id p = s) l)) ids).
    + clear IH Hnd. induction ids as [|s ids IHids]; [done|].
      simpl. rewrite IHids, filter_cons.
      destruct (decide (get_id p = s)); simpl; lia.
    + rewrite IH, indicator_sum by done.
      destruct (decide (get_id p ∈ ids)); simpl; lia.
Qed.

(** X5. A line depends only on the points of its own storm: two point sets
    with the same points of a storm id, in the same order, give the same line
    for that id. *)
Theorem line_depends_on_own_points points1 points2 sid :
  filter (λ p, get_id p = sid) points1 = filter (λ p, get_id p = sid) points2 →
  create_line points1 sid = create_line points2 sid.
Proof.
  intros Heq. unfold create_line, ee.String_cast.
  by rewrite !filter_Filter_eq, Heq.
Qed.

(** X6. The vertices of the line of a storm id are the vertices of the points
    with that id, each as often as it occurs: sorting loses and adds none, and
    no point of another storm contributes. *)
Theorem line_vertices_are_storm_vertices points sid :
  vertices (create_line points sid)
    ≡ₚ flat_map vertices (filter (λ p, get_id p = sid) points) ∧
  ∀ c, c ∈ vertices (create_line points sid) ↔
       ∃ p, p ∈ points ∧ get_id p = sid ∧ c ∈ vertices p.
Proof.
  split; [apply line_vertices_perm|]. intros c.
  rewrite line_vertices_perm, list_elem_of_In, in_flat_map. split.
  - intros (p & Hp & Hc). apply list_elem_of_In, list_elem_of_filter in Hp.
    destruct Hp as [Hid Hp]. exists p.
    split; [done|]. split; [done|]. by apply list_elem_of_In.
  - intros (p & Hp & Hid & Hc). exists p. split.
    + apply list_elem_of_In, list_elem_of_filter. done.
    + by apply list_elem_of_In.
Qed.

(** X7. When the points are single points, every line of the query has as
    many vertices as its storm has points in the year, and at least one. *)
Theorem line_has_its_storms_points catalog dataset year points lines line :
  query_builder catalog dataset year = Some (points, lines) →
  Forall is_Point points →
  line ∈ lines →
  length (vertices line)
    = length (filter (λ p, get_id p = ee.Feature_get line "id") points)
  ∧ 1 ≤ length (vertices line).
Proof.
  intros Hq Hp Hl.
  apply query_builder_Some in Hq as (hurricanes & y & _ & _ & _ & ->).
  apply list_elem_of_fmap in Hl as (sid & -> & Hsid).
  rewrite create_line_id, length_line_vertices by done. split; [done|].
  apply elem_of_storm_ids, list_elem_of_fmap in Hsid as (p & -> & Hin).
  apply (subseteq_take 1000) in Hin.
  assert (Hf : p ∈ filter (λ q, get_id q = get_id p) points)
    by (by apply list_elem_of_filter).
  destruct (filter _ points); [by apply elem_of_nil in Hf|simpl; lia].
Qed.

(** X8. When the points are single points, the lines together have at most as
    many vertices as there are points, and exactly as many when the year has
    at most 1000 points: no point is then lost or used twice. *)
Theorem vertex_conservation catalog dataset year points lines :
  query_builder catalog dataset year = Some (points, lines) →
  Forall is_Point points →
  sum_list_with (λ l, length (vertices l)) lines ≤ length points ∧
  (length points ≤ 1000 →
   sum_list_with (λ l, length (vertices l)) lines = length points).
Proof.
  intros Hq Hp.
  apply query_builder_Some in Hq as (hurricanes & y & _ & _ & _ & ->).
  assert (Hsum : sum_list_with (λ l, length (vertices l))
                   (create_line points <$> storm_ids points)
                 = length (filter (λ p, get_id p ∈ storm_ids points) points)).
  { rewrite <- count_by_id by apply NoDup_storm_ids.
    induction (storm_ids points) as [|s ids IH]; [done|].
    rewrite fmap_cons. simpl. by rewrite IH, length_line_vertices. }
  rewrite Hsum. split; [apply length_filter|].
  intros Hlen. f_equal. apply filter_all, Forall_forall. intros p Hin.
  apply elem_of_storm_ids. unfold ee.FeatureCollection_toList.
  rewrite take_ge by done. by apply list_elem_of_fmap_2.
Qed.

(** X9. A point of the year lies on the line that carries its storm id,
    wherever the point stands in the collection: the limit of 1000 bounds the
    ids that get a line, not the points of a line. *)
Theorem point_on_its_line catalog dataset year points lines p line :
  query_builder catalog dataset year = Some (points, lines) →
  p ∈ points → line ∈ lines →
  ee.Feature_get line "id" = get_id p →
  vertices p ⊆ vertices line.
Proof.
  intros Hq Hp Hl Hid.
  apply query_builder_Some in Hq as (hurricanes & y & _ & _ & _ & ->).
  apply list_elem_of_fmap in Hl as (sid & -> & _).
  rewrite create_line_id in Hid. subst sid. intros c Hc.
  rewrite line_vertices_perm.
  apply list_elem_of_In, in_flat_map. exists p.
  split; [|by apply list_elem_of_In].
  apply list_elem_of_In, list_elem_of_filter. done.
Qed.

(** X10. The query yields no line exactly when the year has no point. *)
Theorem no_lines_iff_no_points catalog dataset year points lines :
  query_builder catalog dataset year = Some (points, lines) →
  lines = [] ↔ points = [].
Proof.
  intros Hq.
  apply query_builder_Some in Hq as (hurricanes & y & _ & _ & _ & ->).
  split.
  - intros Hl%fmap_nil_inv. destruct points as [|p points]; [done|].
    assert (Hin : get_id p ∈ storm_ids (p :: points)).
    { apply elem_of_storm_ids. simpl. apply list_elem_of_here. }
    rewrite Hl in Hin. by apply elem_of_nil in Hin.
  - intros ->. destruct (storm_ids []) as [|s ids] eqn:Hs; [done|].
    assert (Hin : s ∈ storm_ids []) by (rewrite Hs; apply list_elem_of_here).
    apply elem_of_storm_ids in Hin. by apply elem_of_nil in Hin.
Qed.

End LineVertices.

(** ** A run whose session is not established *)

Section FailedSession.
Context `{B : ee.Backend}.

Lemma shown_app t1 t2 : shown (t1 ++ t2) = shown t1 ++ shown t2.
Proof. apply omap_app. Qed.

Lemma session_init_shows_nothing w t0 :
  ∃ res calls, session_init w t0 = (res, t0 ++ calls) ∧ shown calls = [].
Proof.
  rewrite session_init_cases.
  destruct (Initialize_ok w t0);
    [|destruct (Authenticate_ok w (t0 ++ [CInitialize]))];
    eexists _, _; split; reflexivity.
Qed.

(** X11. When Session Init ends with an exception, the run of the notebook
    ends with that exception and with the trace of Session Init: no query is
    made and no deck is shown. *)
Theorem failed_session_stops_notebook w t0 e t1 :
  session_init w t0 = (Raised e, t1) →
  notebook w t0 = (Raised e, t1) ∧ shown t1 = shown t0.
Proof.
  intros Hs. split.
  - unfold notebook, mbind, M_bind. by rewrite Hs.
  - destruct (session_init_shows_nothing w t0) as (res & calls & Hs' & Hsh).
    rewrite Hs in Hs'. injection Hs' as _ ->.
    by rewrite shown_app, Hsh, (right_id_L [] (++)).
Qed.

End FailedSession.

(** *** The further properties on the sample data *)

Example small_query_2016 :
  query_builder (B := reference_backend) small_catalog atlantic "2016" =
  Some (small_points_2016, small_lines_2016).
Proof. by_computation. Qed.

Example empty_query :
  query_builder (B := reference_backend) small_catalog atlantic "1999" =
  Some ([], []).
Proof. by_computation. Qed.

Example long_line_keeps_all_points :
  length (vertices (create_line (B := reference_backend) long_table
                      (VString "AL092017"))) = 1000.
Proof. vm_compute. reflexivity. Qed.

Lemma small_points_are_points : Forall is_Point small_points.
Proof. repeat constructor. Qed.

Lemma points_of_calendar_year_witness :
  ∃ points lines,
    query_builder (B := reference_backend) small_catalog atlantic "2017"
      = Some (points, lines) ∧
    ∀ p, p ∈ points ↔
         p ∈ small_table ∧
         ∃ t, ee.Feature_get p "system:time_start" = VNumber t ∧
              Calendar.year_of_millis t = 2017%Z.
Proof.
  apply (points_of_calendar_year (B := reference_backend)
           small_catalog atlantic "2017" small_table 2017%Z);
    reflexivity.
Defined.

Lemma years_share_no_point_witness :
  storm_point "AL112017" 1504656000000 (-630, 181)%Z ∉ small_points_2016.
Proof.
  apply (years_share_no_point (B := reference_backend)
           small_catalog atlantic "2017" "2016" 2017%Z 2016%Z
           small_points small_lines small_points_2016 small_lines_2016).
  - exact small_query.
  - exact small_query_2016.
  - reflexivity.
  - reflexivity.
  - lia.
  - by_computation.
Defined.

Lemma line_depends_on_own_points_witness :
  create_line (B := reference_backend) small_points (VString "AL112017")
  = create_line (B := reference_backend)
      [storm_point "AL112017" 1504656000000 (-630, 181)%Z] (VString "AL112017").
Proof.
  apply (line_depends_on_own_points (B := reference_backend)).
  by_computation.
Defined.

Lemma line_has_its_storms_points_witness :
  length (vertices (mkFeature (LineString [(-935, 250); (-966, 270)]%Z)
                      {["id" := VString "AL092017"]}))
    = length (filter
                (λ p, get_id p =
                      ee.Feature_get
                        (mkFeature (LineString [(-935, 250); (-966, 270)]%Z)
                           {["id" := VString "AL092017"]}) "id")
                small_points)
  ∧ 1 ≤ length (vertices (mkFeature (LineString [(-935, 250); (-966, 270)]%Z)
                            {["id" := VString "AL092017"]})).
Proof.
  apply (line_has_its_storms_points (B := reference_backend)
           small_catalog atlantic "2017" small_points small_lines
           (mkFeature (LineString [(-935, 250); (-966, 270)]%Z)
              {["id" := VString "AL092017"]})).
  - exact small_query.
  - exact small_points_are_points.
  - by_computation.
Defined.

Lemma vertex_conservation_witness :
  sum_list_with (λ l, length (vertices l)) small_lines ≤ length small_points ∧
  (length small_points ≤ 1000 →
   sum_list_with (λ l, length (vertices l)) small_lines = length small_points).
Proof.
  apply (vertex_conservation (B := reference_backend)
           small_catalog atlantic "2017" small_points small_lines).
  - exact small_query.
  - exact small_points_are_points.
Defined.

Lemma point_on_its_line_witness :
  vertices (storm_point "AL092017" 1503619200000 (-966, 270)%Z)
  ⊆ vertices (mkFeature (LineString (replicate 1000 (-966, 270)%Z))
                {["id" := VString "AL092017"]}).
Proof.
  apply (point_on_its_line (B := reference_backend)
           long_catalog atlantic "2017" long_table long_lines).
  - exact long_query.
  - by_computation.
  - by_computation.
  - by_computation.
Defined.

Lemma no_lines_iff_no_points_witness :
  (@nil Feature = [] ↔ @nil Feature = []).
Proof.
  apply (no_lines_iff_no_points (B := reference_backend)
           small_catalog atlantic "1999" [] []).
  exact empty_query.
Defined.

Lemma failed_session_stops_notebook_witness :
  notebook (B := reference_backend) declined_world [] =
    (Raised AuthenticateError, [CInitialize; CAuthenticate])
  ∧ shown [CInitialize; CAuthenticate] = shown [].
Proof.
  apply (failed_session_stops_notebook (B := reference_backend)
           declined_world [] AuthenticateError [CInitialize; CAuthenticate]).
  reflexivity.
Defined.

(** * The limit of 1000 features and the degenerate lines *)

Section Limit.
Context `{B : ee.Backend}.
Implicit Types (points lines : list Feature) (sid : Value).

Lemma singleton_of_NoDup {A} (l : list A) (x : A) :
  NoDup l → (∀ y, y ∈ l ↔ y = x) → l = [x].
Proof.
  intros Hnd Hx. destruct l as [|a l].
  - exfalso. apply (elem_of_nil x). by apply Hx.
  - assert (a = x) as -> by (apply Hx; left).
    destruct l as [|b l]; [done|].
    assert (b = x) as -> by (apply Hx; right; left).
    apply NoDup_cons in Hnd as [Hn _]. exfalso. apply Hn. left.
Qed.

(** The listed storm ids of the 1001-point year, whatever the service's
    [distinct] and [sort]. *)
Lemma long_storm_ids : storm_ids long_table = [VString "AL092017"].
Proof.
  apply singleton_of_NoDup; [apply NoDup_storm_ids|]. intros y.
  rewrite elem_of_storm_ids. unfold ee.FeatureCollection_toList.
  assert (Hids : get_id <$> take 1000 long_table
                 = replicate 1000 (VString "AL092017")) by by_computation.
  rewrite Hids, elem_of_replicate. split; [by intros [? _]|]. intros ->.
  split; [done|lia].
Qed.

Lemma long_query_any_service :
  query_builder long_catalog atlantic "2017" =
  Some (long_table, [create_line long_table (VString "AL092017")]).
Proof.
  destruct (getRange_of_year "2017" 2017%Z eq_refl) as (date & Hd & Hr).
  unfold query_builder, long_catalog. rewrite lookup_singleton_eq, Hd, Hr.
  assert (Hp : ee.FeatureCollection_filter
                 (ee.Filter_date
                    (mkDateRange (Calendar.year_start 2017)
                       (Calendar.year_start (2017 + 1)))) long_table
               = long_table) by by_computation.
  cbv zeta. by rewrite Hp, long_storm_ids.
Qed.

Lemma long_ids :
  get_id <$> long_table
  = replicate 1000 (VString "AL092017") ++ [VString "AL112017"].
Proof. by_computation. Qed.

(** C1. On a year of 1001 points whose last point is the only one of storm
    [AL112017], whatever the service's [sort] and [distinct]: the query
    returns all 1001 points, [AL112017] is the storm id of one of them, and no
    line feature carries it. The property that every storm id of the year's
    points has exactly one line does not hold of the code there. *)
Theorem storm_beyond_1000_has_no_line :
  ∃ lines,
    query_builder long_catalog atlantic "2017" = Some (long_table, lines) ∧
    length long_table = 1001 ∧
    VString "AL112017" ∈ get_id <$> long_table ∧
    (∀ l, l ∈ lines → ee.Feature_get l "id" ≠ VString "AL112017") ∧
    ¬ has_one_sorted_line long_table lines (VString "AL112017") ∧
    ¬ one_line_per_storm_id long_catalog atlantic "2017".
Proof.
  assert (Hin : VString "AL112017" ∈ get_id <$> long_table).
  { rewrite long_ids, elem_of_app. right. apply list_elem_of_here. }
  assert (Hno : ¬ has_one_sorted_line long_table
                    [create_line long_table (VString "AL092017")]
                    (VString "AL112017")).
  { intros (line & pts & Hf & _).
    rewrite filter_cons, create_line_id, decide_False in Hf by discriminate.
    discriminate Hf. }
  exists [create_line long_table (VString "AL092017")].
  split; [apply long_query_any_service|].
  split; [by rewrite <- (length_fmap get_id), long_ids, length_app,
            length_replicate|].
  split; [exact Hin|]. split; [|split; [exact Hno|]].
  - intros l ->%list_elem_of_singleton. rewrite create_line_id. discriminate.
  - intros Hclaim. apply Hno.
    exact (Hclaim _ _ _ long_query_any_service Hin).
Qed.

(** C6. The 2017 scenario on a year of 1001 points whose last point is the
    only one of storm [AL112017], in a run with valid credentials: the run
    shows the two decks over all 1001 points, two distinct storm ids are
    observed in the year, and there is one line only, the one of
    [AL092017]: not one line per distinct storm id. *)
Theorem scenario_2017_misses_storm :
  ∃ g lines,
    notebook long_world [] =
      (Returned g,
       [CInitialize; CShow (raster.r long_table lines);
        CShow (vector.r long_table lines)]) ∧
    nb.points g = long_table ∧
    nb.lines g = lines ∧
    ee.distinct (get_id <$> long_table)
      ≡ₚ [VString "AL092017"; VString "AL112017"] ∧
    (λ l, ee.Feature_get l "id") <$> lines = [VString "AL092017"] ∧
    length lines < length (ee.distinct (get_id <$> long_table)).
Proof.
  assert (Hd : ee.distinct (get_id <$> long_table)
               ≡ₚ [VString "AL092017"; VString "AL112017"]).
  { apply NoDup_Permutation; [apply ee.distinct_NoDup| |].
    - apply NoDup_cons. split; [|apply NoDup_singleton].
      intros [=]%list_elem_of_singleton.
    - intros sid. rewrite ee.distinct_elem_of, long_ids, elem_of_app,
        elem_of_replicate, list_elem_of_singleton, elem_of_cons,
        list_elem_of_singleton.
      split; [intros [[-> _]| ->]; auto|intros [->| ->]; [left|right]; done]. }
  eexists _, [create_line long_table (VString "AL092017")].
  split; [exact (notebook_run long_world [] [CInitialize] long_table _
                   eq_refl long_query_any_service)|].
  split; [done|]. split; [done|]. split; [exact Hd|].
  split; [by rewrite fmap_cons, create_line_id|].
  rewrite Hd. simpl. lia.
Qed.






End Limit.

Example run_create_line_no_point :
  run_create_line (B := reference_backend) small_points (VString "AL992017")
  = None.
Proof. reflexivity. Qed.

Example run_lines_small :
  run_lines (B := reference_backend) small_points = Some small_lines.
Proof. by_computation. Qed.

